(** * eshipz-mcp: the tracking summariser of [main.py]

    A shallow embedding of [_format_carrier], [_create_summary] and
    [get_tracking], together with the fragment of Python's dynamic
    semantics they rely on: truth values, [dict.get], subscripting,
    [len], [str.upper], f-string rendering and the exceptions these
    operations raise on values of the wrong type.

    Text is modelled by [string]; the development is exact for ASCII
    text, which is what the string literals of the program and the
    provider's codes are made of. *)

From Stdlib Require Import String Ascii List ZArith Bool Arith DecimalString DecimalNat Lia.
From ExtLib Require Import Structures.Monad Structures.MonadExc Data.Monads.EitherMonad.
Import ListNotations MonadNotation.
Local Open Scope monad_scope.
Local Open Scope string_scope.

Set Warnings "-register-all".

(** ** Values produced by [response.json()] *)

(** A float is observed by the program in two ways only: through its
    truth value and through its [str()] text.  It is represented by
    this pair of observations. *)
Record pyfloat : Type := PyFloat {
  float_nonzero : bool;
  float_text : string
}.

(** A dict is its list of entries in insertion order; keys are strings,
    as in every JSON object, and a key occurs once. *)
Inductive value : Type :=
| VNone
| VBool (b : bool)
| VInt (n : Z)
| VFloat (x : pyfloat)
| VStr (s : string)
| VList (items : list value)
| VDict (entries : list (string * value)).

(** [type(v).__name__], as it appears in error messages. *)
Definition type_name (v : value) : string :=
  match v with
  | VNone => "NoneType"
  | VBool _ => "bool"
  | VInt _ => "int"
  | VFloat _ => "float"
  | VStr _ => "str"
  | VList _ => "list"
  | VDict _ => "dict"
  end.

(** [bool(v)]: the test performed by [if v], [not v] and [a if v else b]. *)
Definition truthy (v : value) : bool :=
  match v with
  | VNone => false
  | VBool b => b
  | VInt n => negb (Z.eqb n 0)
  | VFloat x => float_nonzero x
  | VStr s => negb (String.eqb s EmptyString)
  | VList items => match items with [] => false | _ :: _ => true end
  | VDict entries => match entries with [] => false | _ :: _ => true end
  end.

(** [v == s] for a string literal [s]: only an equal [str] compares equal. *)
Definition py_eq_str (v : value) (s : string) : bool :=
  match v with
  | VStr t => String.eqb t s
  | _ => false
  end.

(** ** Text *)

Definition nl : string := String (ascii_of_nat 10) EmptyString.
Definition squote : ascii := ascii_of_nat 39.
Definition dquote : ascii := ascii_of_nat 34.
Definition backslash : ascii := ascii_of_nat 92.

Fixpoint join (sep : string) (parts : list string) : string :=
  match parts with
  | [] => EmptyString
  | [p] => p
  | p :: rest => p ++ sep ++ join sep rest
  end.

Fixpoint contains_char (c : ascii) (s : string) : bool :=
  match s with
  | EmptyString => false
  | String a rest => Ascii.eqb a c || contains_char c rest
  end.

Definition is_lower (c : ascii) : bool :=
  ((97 <=? nat_of_ascii c) && (nat_of_ascii c <=? 122))%nat.

Definition upper_char (c : ascii) : ascii :=
  if is_lower c then ascii_of_nat (nat_of_ascii c - 32) else c.

(** [s.upper()] on ASCII text, where it is exact: the letters a-z become
    A-Z and every other character stays.  Python's case mapping of the
    characters beyond ASCII is not modelled: a statement about the text
    of an upper-cased string is made for ASCII strings only. *)
Fixpoint upper (s : string) : string :=
  match s with
  | EmptyString => EmptyString
  | String c rest => String (upper_char c) (upper rest)
  end.

Definition hex_digit (n : nat) : ascii :=
  if (n <? 10)%nat then ascii_of_nat (48 + n) else ascii_of_nat (87 + n).

(** One character of [repr(s)] for the chosen quote, on ASCII text, where
    it is exact; the escapes Python writes for characters beyond ASCII
    that do not print are not modelled. *)
Definition repr_char (quote c : ascii) : string :=
  let n := nat_of_ascii c in
  if Ascii.eqb c quote || Ascii.eqb c backslash then String backslash (String c EmptyString)
  else if (n =? 9)%nat then String backslash "t"
  else if (n =? 10)%nat then String backslash "n"
  else if (n =? 13)%nat then String backslash "r"
  else if ((n <? 32) || (n =? 127))%nat then
    String backslash (String "x" (String (hex_digit (n / 16)) (String (hex_digit (n mod 16)) EmptyString)))
  else String c EmptyString.

Fixpoint repr_body (quote : ascii) (s : string) : string :=
  match s with
  | EmptyString => EmptyString
  | String c rest => repr_char quote c ++ repr_body quote rest
  end.

(** [repr(s)] of a [str]: single quotes unless the text holds a single
    quote and no double quote. *)
Definition repr_str (s : string) : string :=
  let quote := if contains_char squote s && negb (contains_char dquote s)
               then dquote else squote in
  String quote (repr_body quote s ++ String quote EmptyString).

Definition str_of_Z (n : Z) : string := NilZero.string_of_int (Z.to_int n).
Definition str_of_nat (n : nat) : string := NilZero.string_of_uint (Nat.to_uint n).

(** [repr(v)]. *)
Fixpoint py_repr (v : value) : string :=
  match v with
  | VNone => "None"
  | VBool true => "True"
  | VBool false => "False"
  | VInt n => str_of_Z n
  | VFloat x => float_text x
  | VStr s => repr_str s
  | VList items => "[" ++ join ", " (map py_repr items) ++ "]"
  | VDict entries =>
      "{" ++ join ", " (map (fun kv => repr_str (fst kv) ++ ": " ++ py_repr (snd kv)) entries) ++ "}"
  end.

(** [str(v)], which is what [f"{v}"] renders. *)
Definition py_str (v : value) : string :=
  match v with
  | VStr s => s
  | _ => py_repr v
  end.

(** ** Exceptions *)

Inductive exn : Type :=
| AttributeError (ty attr : string)
| NotSubscriptable (ty : string)
| NoLen (ty : string)
| KeyError (key : value)
| IndexError (what : string).

(** [str(e)]. *)
Definition exn_str (e : exn) : string :=
  match e with
  | AttributeError ty attr =>
      "'" ++ ty ++ "' object has no attribute '" ++ attr ++ "'"
  | NotSubscriptable ty => "'" ++ ty ++ "' object is not subscriptable"
  | NoLen ty => "object of type '" ++ ty ++ "' has no len()"
  | KeyError key => py_repr key
  | IndexError what => what ++ " index out of range"
  end.

(** Computations that return or raise. *)
Definition M : Type -> Type := sum exn.

(** ** Operations on values *)

Fixpoint dict_lookup (key : string) (entries : list (string * value)) : option value :=
  match entries with
  | [] => None
  | (k, v) :: rest => if String.eqb k key then Some v else dict_lookup key rest
  end.

(** [d.get(key, default)] on the entries of a dict. *)
Definition field (entries : list (string * value)) (key : string) (default : value) : value :=
  match dict_lookup key entries with
  | Some v => v
  | None => default
  end.

Arguments field : simpl never.

(** [obj.get(key, default)]: only a dict has the method. *)
Definition py_get (obj : value) (key : string) (default : value) : M value :=
  match obj with
  | VDict entries => ret (field entries key default)
  | _ => raise (AttributeError (type_name obj) "get")
  end.

(** [obj[0]]. *)
Definition py_item0 (obj : value) : M value :=
  match obj with
  | VList (x :: _) => ret x
  | VList [] => raise (IndexError "list")
  | VStr (String c _) => ret (VStr (String c EmptyString))
  | VStr EmptyString => raise (IndexError "string")
  | VDict _ => raise (KeyError (VInt 0))
  | _ => raise (NotSubscriptable (type_name obj))
  end.

(** [len(obj)]. *)
Definition py_len (obj : value) : M nat :=
  match obj with
  | VList items => ret (List.length items)
  | VStr s => ret (String.length s)
  | VDict entries => ret (List.length entries)
  | _ => raise (NoLen (type_name obj))
  end.

(** [obj.upper()]. *)
Definition py_upper (obj : value) : M string :=
  match obj with
  | VStr s => ret (upper s)
  | _ => raise (AttributeError (type_name obj) "upper")
  end.

(** ** The program *)

(** [_format_carrier]: [slug.upper() if slug else "Unknown Carrier"]. *)
Definition _format_carrier (slug : value) : M string :=
  if truthy slug then py_upper slug else ret "Unknown Carrier".

(** [summary += extra], executed when [c] holds. *)
Definition add_if (c : bool) (summary extra : string) : string :=
  if c then summary ++ extra else summary.

(** [checkpoints[0] if checkpoints else {}]. *)
Definition latest_checkpoint (checkpoints : value) : M value :=
  if truthy checkpoints then py_item0 checkpoints else ret (VDict []).

(** The status dispatch of [_create_summary]: the [if]/[elif] chain over
    the locals bound before it.  No operation in it can raise. *)
Definition status_summary (tracking_num : value) (carrier : string)
    (status location remark delivery_date eta : value) : string :=
  if py_eq_str status "Delivered" then
    let summary := " Delivered via " ++ carrier in
    let summary := add_if (truthy delivery_date) summary (" on " ++ py_str delivery_date) in
    let summary := add_if (truthy location) summary (" at " ++ py_str location) in
    summary
  else if py_eq_str status "OutForDelivery" then
    let summary := " Out for delivery via " ++ carrier in
    let summary := add_if (truthy location) summary (" from " ++ py_str location) in
    summary
  else if py_eq_str status "InTransit" then
    let summary := "In transit via " ++ carrier in
    let summary := add_if (truthy location) summary (", currently in " ++ py_str location) in
    let summary := add_if (truthy remark) summary (" - " ++ py_str remark) in
    let summary := add_if (truthy eta) summary (nl ++ "   Expected delivery: " ++ py_str eta) in
    summary
  else if py_eq_str status "Exception" then
    let summary := "Exception via " ++ carrier in
    let summary := add_if (truthy location) summary (" at " ++ py_str location) in
    let summary := add_if (truthy remark) summary (" - " ++ py_str remark) in
    summary
  else if py_eq_str status "PickedUp" then
    let summary := "Picked up via " ++ carrier in
    let summary := add_if (truthy location) summary (" from " ++ py_str location) in
    summary
  else if py_eq_str status "InfoReceived" then
    "Shipment information received by " ++ carrier
  else
    let summary :=
      if truthy status then py_str status ++ " via " ++ carrier
      else "Tracking " ++ py_str tracking_num ++ " via " ++ carrier in
    if truthy location && truthy remark then
      summary ++ " - " ++ py_str remark ++ " (" ++ py_str location ++ ")"
    else add_if (truthy remark) summary (" - " ++ py_str remark).

(** [_create_summary]. *)
Definition _create_summary (shipment : value) : M string :=
  tracking_num <- py_get shipment "tracking_number" (VStr "Unknown") ;;
  slug <- py_get shipment "slug" VNone ;;
  carrier <- _format_carrier slug ;;
  status <- py_get shipment "tag" VNone ;;
  checkpoints <- py_get shipment "checkpoints" (VList []) ;;
  latest <- latest_checkpoint checkpoints ;;
  location <- py_get latest "city" (VStr EmptyString) ;;
  remark <- py_get latest "remark" (VStr EmptyString) ;;
  delivery_date <- py_get shipment "delivery_date" VNone ;;
  eta <- py_get shipment "expected_delivery_date" VNone ;;
  ret (status_summary tracking_num carrier status location remark delivery_date eta).

(** The body of the [try] block of [get_tracking]. *)
Definition try_block (data : value) : M string :=
  match data with
  | VList (shipment :: _) =>
      summary <- _create_summary shipment ;;
      checkpoints <- py_get shipment "checkpoints" (VList []) ;;
      summary <-
        (if truthy checkpoints then
           first <- py_item0 checkpoints ;;
           latest_time <- py_get first "date" (VStr EmptyString) ;;
           ret (add_if (truthy latest_time) summary
                  (nl ++ "   Last updated: " ++ py_str latest_time))
         else ret summary) ;;
      event_count <- py_len checkpoints ;;
      ret (add_if (0 <? event_count)%nat summary
             (nl ++ "   Total events: " ++ str_of_nat event_count))
  | _ => ret "No shipment data found in the response."
  end.

(** [get_tracking].  The fetcher [make_nws_request] is the external
    collaborator: it yields the parsed body, or [VNone] on any failure.
    A result [inl e] would be an exception reaching the host. *)
Definition get_tracking (make_nws_request : string -> value)
    (tracking_number : string) : M string :=
  let data := make_nws_request tracking_number in
  if negb (truthy data) then
    ret " Tracking information could not be retrieved. Please verify the tracking number."
  else
    catch (try_block data)
      (fun e => ret ("Error processing tracking data: " ++ exn_str e)).

(** ** Vocabulary of the statements *)

(** The text a field contributes to the summary: nothing when the field
    is absent or empty. *)
Definition text (v : value) : option string :=
  if truthy v then Some (py_str v) else None.


Definition retrieval_failed : string :=
  " Tracking information could not be retrieved. Please verify the tracking number.".

Definition is_list (v : value) : bool :=
  match v with
  | VList _ => true
  | _ => false
  end.


(** The date of a checkpoint, when it has one that is not empty. *)
Definition checkpoint_date (checkpoint : value) : option string :=
  match checkpoint with
  | VDict entries => text (field entries "date" (VStr EmptyString))
  | _ => None
  end.

(** The "Last updated" line in the words of the specification: present
    when the sequence is not empty and its first date is there. *)
Definition spec_last_updated (checkpoints : list value) : string :=
  match checkpoints with
  | first :: _ =>
      match checkpoint_date first with
      | Some date => nl ++ "   Last updated: " ++ date
      | None => EmptyString
      end
  | [] => EmptyString
  end.

(** [s] is the decimal numeral of [n], without leading zeros. *)
Definition reads_as (s : string) (n : nat) : Prop :=
  exists d,
    NilZero.uint_of_string s = Some d /\ Decimal.unorm d = d /\ Nat.of_uint d = n.

(** Upper-casing in the words of the specification, letter by letter
    against the alphabet. *)
Definition lower_letters : string := "abcdefghijklmnopqrstuvwxyz".
Definition upper_letters : string := "ABCDEFGHIJKLMNOPQRSTUVWXYZ".

Fixpoint position (c : ascii) (s : string) : option nat :=
  match s with
  | EmptyString => None
  | String a rest => if Ascii.eqb a c then Some 0 else option_map S (position c rest)
  end.

(** The capital of a small letter; any other character is its own. *)
Definition capital (c : ascii) : ascii :=
  match position c lower_letters with
  | Some i => match String.get i upper_letters with
              | Some C => C
              | None => c
              end
  | None => c
  end.

(** [rendered] is [slug] with every small letter replaced by its capital. *)
Definition upper_cased (slug rendered : string) : Prop :=
  String.length rendered = String.length slug /\
  forall i c, String.get i slug = Some c -> String.get i rendered = Some (capital c).

Fixpoint is_ascii (s : string) : bool :=
  match s with
  | EmptyString => true
  | String c rest => (nat_of_ascii c <? 128)%nat && is_ascii rest
  end.




(** Two checkpoint fields agree when they are equal, or when both are
    lists of one length with the same first element. *)
Definition checkpoints_agree (c1 c2 : option value) : Prop :=
  c1 = c2 \/
  exists l1 l2,
    c1 = Some (VList l1) /\ c2 = Some (VList l2) /\
    List.length l1 = List.length l2 /\ hd_error l1 = hd_error l2.

(** The two worked examples of the specification, with the keys the
    program reads: [tag], [slug], [delivery_date],
    [expected_delivery_date], [checkpoints]. *)
Definition delivered_example : value :=
  VDict [("tag", VStr "Delivered"); ("slug", VStr "ups");
         ("delivery_date", VStr "2024-01-05");
         ("checkpoints",
          VList [VDict [("city", VStr "Austin"); ("date", VStr "2024-01-05T10:00")]])].

Definition in_transit_example : value :=
  VDict [("tag", VStr "InTransit"); ("slug", VStr "dhl");
         ("expected_delivery_date", VStr "2024-02-01");
         ("checkpoints",
          VList [VDict [("city", VStr "Reno"); ("remark", VStr "Departed facility")]])].

(** ** Vocabulary of the further statements *)

Definition is_str (v : value) : bool :=
  match v with
  | VStr _ => true
  | _ => false
  end.

(** A slug [_format_carrier] accepts: falsy, or a string. *)
Definition slug_ok (slug : value) : bool := negb (truthy slug) || is_str slug.

(** Checkpoints the program gets through: nothing to index and a length
    of zero, or a list that starts with a dict. *)
Definition checkpoints_ok (checkpoints : value) : bool :=
  match checkpoints with
  | VList [] => true
  | VList (VDict _ :: _) => true
  | VStr EmptyString => true
  | VDict [] => true
  | _ => false
  end.

(** A part of a sentence that is there only when its field has text. *)
Definition part (prefix : string) (v : value) : string :=
  match text v with
  | Some t => prefix ++ t
  | None => EmptyString
  end.

(** [sub in s]. *)
Fixpoint occurs (sub s : string) : bool :=
  String.prefix sub s ||
  match s with
  | EmptyString => false
  | String _ rest => occurs sub rest
  end.

(** The text [c] occurs in [s]. *)
Definition names (c s : string) : Prop :=
  exists before after, s = before ++ c ++ after.

(** The exceptions this program can meet. *)
Definition met (e : exn) : Prop :=
  (exists ty, e = AttributeError ty "get") \/ (exists ty, e = AttributeError ty "upper")
  \/ e = KeyError (VInt 0) \/ (exists ty, e = NotSubscriptable ty)
  \/ (exists ty, e = NoLen ty).

(** ** The error monad *)

Lemma bind_inr {A B} (x : A) (k : A -> M B) : bind (inr x : M A) k = k x.
Proof. reflexivity. Qed.

Lemma bind_inl {A B} (e : exn) (k : A -> M B) : bind (inl e : M A) k = inl e.
Proof. reflexivity. Qed.

Lemma catch_inr {A} (x : A) (h : exn -> M A) : catch (inr x : M A) h = inr x.
Proof. reflexivity. Qed.

Lemma catch_inl {A} (e : exn) (h : exn -> M A) : catch (inl e : M A) h = h e.
Proof. reflexivity. Qed.

(** ** Text and fields *)

Lemma append_empty_r s : s ++ EmptyString = s.
Proof. induction s as [| c s IH]; simpl; [reflexivity | now rewrite IH]. Qed.

Lemma truthy_str s : truthy (VStr s) = true <-> s <> EmptyString.
Proof.
  simpl. rewrite negb_true_iff. apply String.eqb_neq.
Qed.

Lemma text_str_nonempty c s : text (VStr (String c s)) = Some (String c s).
Proof. reflexivity. Qed.

Lemma text_str_empty : text (VStr EmptyString) = None.
Proof. reflexivity. Qed.

Lemma text_none : text VNone = None.
Proof. reflexivity. Qed.

Lemma field_missing entries key default :
  dict_lookup key entries = None -> field entries key default = default.
Proof. intros Hmissing. unfold field. now rewrite Hmissing. Qed.

Lemma field_found entries key default v :
  dict_lookup key entries = Some v -> field entries key default = v.
Proof. intros Hfound. unfold field. now rewrite Hfound. Qed.

Lemma field_agree e1 e2 key default :
  dict_lookup key e1 = dict_lookup key e2 -> field e1 key default = field e2 key default.
Proof. intros Hsame. unfold field. now rewrite Hsame. Qed.

Lemma py_get_dict entries key default :
  py_get (VDict entries) key default = inr (field entries key default).
Proof. reflexivity. Qed.

Lemma upper_char_lower c :
  is_lower c = true -> nat_of_ascii (upper_char c) = nat_of_ascii c - 32.
Proof.
  intros Hlower. unfold upper_char. rewrite Hlower.
  rewrite nat_ascii_embedding; [reflexivity |].
  pose proof (nat_ascii_bounded c). lia.
Qed.

Lemma upper_char_other c : is_lower c = false -> upper_char c = c.
Proof. intros Hother. unfold upper_char. rewrite Hother. reflexivity. Qed.

Lemma upper_char_not_lower c : is_lower (upper_char c) = false.
Proof. destruct c as [[] [] [] [] [] [] [] []]; reflexivity. Qed.

Lemma upper_length s : String.length (upper s) = String.length s.
Proof. induction s as [| c s IH]; simpl; [reflexivity | now rewrite IH]. Qed.

Lemma upper_idempotent s : upper (upper s) = upper s.
Proof.
  induction s as [| c s IH]; simpl; [reflexivity |].
  rewrite IH, (upper_char_other _ (upper_char_not_lower c)). reflexivity.
Qed.

Lemma upper_no_lower s c : contains_char c (upper s) = true -> is_lower c = false.
Proof.
  induction s as [| a s IH]; simpl; [discriminate |].
  intros Hin. apply orb_true_iff in Hin. destruct Hin as [Hhead | Htail].
  - apply Ascii.eqb_eq in Hhead. subst c. apply upper_char_not_lower.
  - now apply IH.
Qed.

(** ** The boundary of the tool *)

Lemma get_tracking_falsy fetch tn :
  truthy (fetch tn) = false -> get_tracking fetch tn = inr retrieval_failed.
Proof.
  intros Hfalsy. unfold get_tracking. rewrite Hfalsy. reflexivity.
Qed.

Lemma get_tracking_truthy fetch tn :
  truthy (fetch tn) = true ->
  get_tracking fetch tn =
  catch (try_block (fetch tn))
    (fun e => ret ("Error processing tracking data: " ++ exn_str e)).
Proof.
  intros Htruthy. unfold get_tracking. rewrite Htruthy. reflexivity.
Qed.

(** Enter the [try] block of a call whose response [Hdata] is known. *)
Ltac enter_try Hdata :=
  rewrite get_tracking_truthy by (rewrite Hdata; reflexivity);
  rewrite Hdata.

Lemma try_block_first shipment rest :
  try_block (VList (shipment :: rest)) = try_block (VList [shipment]).
Proof. reflexivity. Qed.

Lemma try_block_create_summary_raises shipment rest e :
  _create_summary shipment = inl e ->
  try_block (VList (shipment :: rest)) = inl e.
Proof.
  intros Hraise. unfold try_block. rewrite Hraise. reflexivity.
Qed.

(** C1: [get_tracking] is total and no exception leaves it.  Whatever the
    fetcher yields, the call returns a string; when the [try] block
    raises [e], and in particular when [_create_summary] does, the
    string returned is "Error processing tracking data: " followed by
    [str(e)]. *)
Theorem get_tracking_total (fetch : string -> value) (tn : string) :
  (exists out, get_tracking fetch tn = inr out) /\
  (forall e, truthy (fetch tn) = true -> try_block (fetch tn) = inl e ->
     get_tracking fetch tn = inr ("Error processing tracking data: " ++ exn_str e)) /\
  (forall shipment rest e,
     fetch tn = VList (shipment :: rest) -> _create_summary shipment = inl e ->
     get_tracking fetch tn = inr ("Error processing tracking data: " ++ exn_str e)).
Proof.
  split; [| split].
  - unfold get_tracking.
    destruct (truthy (fetch tn)); simpl.
    + destruct (try_block (fetch tn)) as [e | out]; simpl; eauto.
    + eauto.
  - intros e Htruthy Hraise.
    rewrite (get_tracking_truthy _ _ Htruthy), Hraise. reflexivity.
  - intros shipment rest e Hdata Hraise. enter_try Hdata.
    rewrite (try_block_create_summary_raises _ _ _ Hraise). reflexivity.
Qed.

Lemma get_tracking_total_witness :
  get_tracking (fun _ => VList [VDict [("slug", VInt 5)]]) "1Z999" =
  inr "Error processing tracking data: 'int' object has no attribute 'upper'".
Proof.
  exact (proj2 (proj2 (get_tracking_total (fun _ => VList [VDict [("slug", VInt 5)]]) "1Z999"))
           (VDict [("slug", VInt 5)]) [] (AttributeError "int" "upper") eq_refl eq_refl).
Defined.

(** C2, as the code has it: when the fetch result is absent, the string
    returned is the fixed message with one leading space. *)
Theorem get_tracking_absent (fetch : string -> value) (tn : string) :
  fetch tn = VNone ->
  get_tracking fetch tn =
  inr " Tracking information could not be retrieved. Please verify the tracking number.".
Proof.
  intros Habsent. apply get_tracking_falsy. rewrite Habsent. reflexivity.
Qed.

Lemma get_tracking_absent_witness :
  get_tracking (fun _ => VNone) "1Z999" =
  inr " Tracking information could not be retrieved. Please verify the tracking number.".
Proof. apply (get_tracking_absent (fun _ => VNone) "1Z999"). reflexivity. Defined.

(** C2 as stated fails: the message returned for an absent result is not
    the text without the leading space. *)
Lemma get_tracking_absent_not_bare :
  ~ (forall (fetch : string -> value) (tn : string),
       fetch tn = VNone ->
       get_tracking fetch tn =
       inr "Tracking information could not be retrieved. Please verify the tracking number.").
Proof.
  intros Hclaim.
  specialize (Hclaim (fun _ => VNone) "1Z999" eq_refl).
  discriminate Hclaim.
Qed.

(** C3, where the code departs from it: the empty list is a present
    response, and the [try] block would answer it with "No shipment data
    found in the response."; the guard before the block takes it first
    and answers it like an absent result. *)
Theorem empty_list_answered_as_absent :
  try_block (VList []) = inr "No shipment data found in the response." /\
  get_tracking (fun _ => VList []) "1Z999" =
  inr " Tracking information could not be retrieved. Please verify the tracking number.".
Proof. split; reflexivity. Qed.

(** ** Carrier formatting *)

Lemma upper_char_capital c : upper_char c = capital c.
Proof. destruct c as [[] [] [] [] [] [] [] []]; reflexivity. Qed.

Lemma get_upper i s : String.get i (upper s) = option_map capital (String.get i s).
Proof.
  revert i. induction s as [| c s IH]; intros [| i]; simpl; try reflexivity.
  - now rewrite upper_char_capital.
  - apply IH.
Qed.

Lemma upper_is_upper_cased s : upper_cased s (upper s).
Proof.
  split; [apply upper_length |].
  intros i c Hget. now rewrite get_upper, Hget.
Qed.

(** C4: the carrier of a shipment whose slug is a non-empty string of
    ASCII characters is the slug with every small letter replaced by its
    capital; an absent slug (the key is missing, or its value is [None])
    and the empty slug are rendered as "Unknown Carrier"; "fedex" is
    rendered as "FEDEX". *)
Theorem carrier_formatting :
  (forall entries slug,
     dict_lookup "slug" entries = Some (VStr slug) ->
     slug <> EmptyString -> is_ascii slug = true ->
     exists carrier,
       bind (py_get (VDict entries) "slug" VNone) _format_carrier = inr carrier /\
       upper_cased slug carrier) /\
  (forall entries, dict_lookup "slug" entries = None ->
     bind (py_get (VDict entries) "slug" VNone) _format_carrier = inr "Unknown Carrier") /\
  (forall entries, dict_lookup "slug" entries = Some VNone ->
     bind (py_get (VDict entries) "slug" VNone) _format_carrier = inr "Unknown Carrier") /\
  (forall entries, dict_lookup "slug" entries = Some (VStr EmptyString) ->
     bind (py_get (VDict entries) "slug" VNone) _format_carrier = inr "Unknown Carrier") /\
  _format_carrier VNone = inr "Unknown Carrier" /\
  _format_carrier (VStr EmptyString) = inr "Unknown Carrier" /\
  _format_carrier (VStr "fedex") = inr "FEDEX".
Proof.
  repeat split.
  - intros entries slug Hfound Hnonempty _.
    rewrite py_get_dict, (field_found _ _ _ _ Hfound), bind_inr.
    destruct slug as [| c s]; [now contradiction Hnonempty |].
    exists (upper (String c s)). split; [reflexivity | apply upper_is_upper_cased].
  - intros entries Hmissing.
    rewrite py_get_dict, (field_missing _ _ _ Hmissing). reflexivity.
  - intros entries Hnull.
    rewrite py_get_dict, (field_found _ _ _ _ Hnull). reflexivity.
  - intros entries Hempty.
    rewrite py_get_dict, (field_found _ _ _ _ Hempty). reflexivity.
Qed.

Lemma carrier_formatting_witness :
  exists carrier,
    bind (py_get (VDict [("tag", VStr "InTransit"); ("slug", VStr "dhl")]) "slug" VNone)
      _format_carrier = inr carrier /\
    upper_cased "dhl" carrier.
Proof.
  apply (proj1 carrier_formatting [("tag", VStr "InTransit"); ("slug", VStr "dhl")] "dhl").
  - reflexivity.
  - discriminate.
  - reflexivity.
Defined.

(** The capitals are those of the alphabet: what [upper_cased] asks of
    "dhl" is met by "DHL" and by no other text. *)
Lemma upper_cased_dhl carrier : upper_cased "dhl" carrier <-> carrier = "DHL".
Proof.
  split.
  - intros [Hlength Hletters].
    destruct carrier as [| a [| b [| c [| d rest]]]]; try discriminate Hlength.
    assert (Ha := Hletters 0 _ eq_refl). assert (Hb := Hletters 1 _ eq_refl).
    assert (Hc := Hletters 2 _ eq_refl). simpl in Ha, Hb, Hc.
    injection Ha as ->. injection Hb as ->. injection Hc as ->. reflexivity.
  - intros ->. split; [reflexivity |].
    intros [| [| [| i]]] c Hget; simpl in Hget; try discriminate Hget;
      injection Hget as <-; reflexivity.
Qed.

(** ** The worked examples *)

(** C5, as the code has it: for the delivered example the output is
    " Delivered via UPS on 2024-01-05 at Austin" with one leading space,
    then the line "   Last updated: 2024-01-05T10:00", then the line
    "   Total events: 1". *)
Theorem delivered_example_output (fetch : string -> value) (tn : string) (rest : list value) :
  fetch tn = VList (delivered_example :: rest) ->
  get_tracking fetch tn =
  inr (" Delivered via UPS on 2024-01-05 at Austin" ++ nl
       ++ "   Last updated: 2024-01-05T10:00" ++ nl
       ++ "   Total events: 1").
Proof.
  intros Hdata. enter_try Hdata. reflexivity.
Qed.

Lemma delivered_example_output_witness :
  get_tracking (fun _ => VList [delivered_example]) "1Z999" =
  inr (" Delivered via UPS on 2024-01-05 at Austin" ++ nl
       ++ "   Last updated: 2024-01-05T10:00" ++ nl
       ++ "   Total events: 1").
Proof.
  apply (delivered_example_output (fun _ => VList [delivered_example]) "1Z999" []).
  reflexivity.
Defined.

(** C5 as stated fails: the output for the delivered example does not
    begin with "Delivered via UPS on 2024-01-05 at Austin". *)
Lemma delivered_example_not_bare :
  ~ (exists tail,
       get_tracking (fun _ => VList [delivered_example]) "1Z999" =
       inr ("Delivered via UPS on 2024-01-05 at Austin" ++ tail)).
Proof.
  intros [tail Hclaim]. cbv in Hclaim. discriminate Hclaim.
Qed.

(** C6: for the in-transit example the output is "In transit via DHL,
    currently in Reno - Departed facility", a newline, "   Expected
    delivery: 2024-02-01", and then the line "   Total events: 1". *)
Theorem in_transit_example_output (fetch : string -> value) (tn : string) (rest : list value) :
  fetch tn = VList (in_transit_example :: rest) ->
  get_tracking fetch tn =
  inr (("In transit via DHL, currently in Reno - Departed facility" ++ nl
        ++ "   Expected delivery: 2024-02-01")
       ++ nl ++ "   Total events: 1").
Proof.
  intros Hdata. enter_try Hdata. reflexivity.
Qed.

Lemma in_transit_example_output_witness :
  get_tracking (fun _ => VList [in_transit_example]) "1Z999" =
  inr (("In transit via DHL, currently in Reno - Departed facility" ++ nl
        ++ "   Expected delivery: 2024-02-01")
       ++ nl ++ "   Total events: 1").
Proof.
  apply (in_transit_example_output (fun _ => VList [in_transit_example]) "1Z999" []).
  reflexivity.
Defined.

(** ** [_create_summary] on a dict *)

Lemma create_summary_dict entries :
  _create_summary (VDict entries) =
  (carrier <- _format_carrier (field entries "slug" VNone) ;;
   latest <- latest_checkpoint (field entries "checkpoints" (VList [])) ;;
   location <- py_get latest "city" (VStr EmptyString) ;;
   remark <- py_get latest "remark" (VStr EmptyString) ;;
   ret (status_summary (field entries "tracking_number" (VStr "Unknown")) carrier
          (field entries "tag" VNone) location remark
          (field entries "delivery_date" VNone)
          (field entries "expected_delivery_date" VNone))).
Proof. reflexivity. Qed.

Lemma create_summary_fields entries latest carrier :
  _format_carrier (field entries "slug" VNone) = inr carrier ->
  latest_checkpoint (field entries "checkpoints" (VList [])) = inr (VDict latest) ->
  _create_summary (VDict entries) =
  inr (status_summary (field entries "tracking_number" (VStr "Unknown")) carrier
         (field entries "tag" VNone)
         (field latest "city" (VStr EmptyString))
         (field latest "remark" (VStr EmptyString))
         (field entries "delivery_date" VNone)
         (field entries "expected_delivery_date" VNone)).
Proof.
  intros Hcarrier Hlatest.
  rewrite create_summary_dict, Hcarrier, bind_inr, Hlatest. reflexivity.
Qed.

Lemma create_summary_not_a_dict shipment :
  (forall entries, shipment <> VDict entries) ->
  _create_summary shipment = inl (AttributeError (type_name shipment) "get").
Proof.
  intros Hshape. destruct shipment; try reflexivity.
  now contradiction (Hshape entries).
Qed.

Lemma latest_checkpoint_empty : latest_checkpoint (VList []) = inr (VDict []).
Proof. reflexivity. Qed.

(** A summary was produced, so the latest checkpoint is a dict. *)
Lemma create_summary_first_dict entries first more base :
  field entries "checkpoints" (VList []) = VList (first :: more) ->
  _create_summary (VDict entries) = inr base ->
  exists latest, first = VDict latest.
Proof.
  intros Hcheckpoints Hsummary.
  rewrite create_summary_dict, Hcheckpoints in Hsummary.
  destruct (_format_carrier (field entries "slug" VNone)) as [e | carrier];
    [discriminate Hsummary |].
  destruct first; try discriminate Hsummary. eauto.
Qed.

(** ** The fallback sentence *)












(** ** The annotations added by [get_tracking] *)

Lemma spec_last_updated_iff checkpoints :
  spec_last_updated checkpoints <> EmptyString <->
  exists first more date,
    checkpoints = first :: more /\ checkpoint_date first = Some date.
Proof.
  split.
  - destruct checkpoints as [| first more]; simpl; [congruence |].
    destruct (checkpoint_date first) as [date |] eqn:Hdate; [| congruence].
    intros _. now exists first, more, date.
  - intros (first & more & date & -> & Hdate). simpl. rewrite Hdate. discriminate.
Qed.

Lemma str_of_nat_reads n : reads_as (str_of_nat n) n.
Proof.
  assert (Hnorm : Decimal.unorm (Nat.to_uint n) = Nat.to_uint n).
  { rewrite <- (Unsigned.to_of (Nat.to_uint n)), Unsigned.of_to. reflexivity. }
  exists (Nat.to_uint n). split; [| split].
  - apply NilZero.usu. intros Hnil. rewrite Hnil in Hnorm. discriminate Hnorm.
  - exact Hnorm.
  - apply Unsigned.of_to.
Qed.

Lemma try_block_dict entries rest :
  try_block (VList (VDict entries :: rest)) =
  (summary <- _create_summary (VDict entries) ;;
   summary <-
     (if truthy (field entries "checkpoints" (VList [])) then
        first <- py_item0 (field entries "checkpoints" (VList [])) ;;
        latest_time <- py_get first "date" (VStr EmptyString) ;;
        ret (add_if (truthy latest_time) summary
               (nl ++ "   Last updated: " ++ py_str latest_time))
      else ret summary) ;;
   event_count <- py_len (field entries "checkpoints" (VList [])) ;;
   ret (add_if (0 <? event_count)%nat summary
          (nl ++ "   Total events: " ++ str_of_nat event_count))).
Proof. reflexivity. Qed.

(** X20: for a dict shipment whose checkpoints are a list, or are
    missing, and whose summary is built, the output is the summary
    followed by the line "Last updated: {date}" exactly when the list is
    not empty and its first date is present and not empty, and by the
    line "Total events: {count}", the count being the decimal numeral of
    the length of the list, exactly when the list is not empty.  With
    the checkpoints missing or an empty list the output is the status
    sentence built with no location and no remark, and neither line. *)
Theorem post_processing :
  (forall fetch tn entries rest checkpoints base,
     fetch tn = VList (VDict entries :: rest) ->
     field entries "checkpoints" (VList []) = VList checkpoints ->
     _create_summary (VDict entries) = inr base ->
     exists count,
       reads_as count (List.length checkpoints) /\
       get_tracking fetch tn =
       inr ((base ++ spec_last_updated checkpoints)
            ++ match checkpoints with
               | [] => EmptyString
               | _ :: _ => nl ++ "   Total events: " ++ count
               end)) /\
  (forall fetch tn entries rest carrier,
     fetch tn = VList (VDict entries :: rest) ->
     field entries "checkpoints" (VList []) = VList [] ->
     _format_carrier (field entries "slug" VNone) = inr carrier ->
     get_tracking fetch tn =
     inr (status_summary (field entries "tracking_number" (VStr "Unknown")) carrier
            (field entries "tag" VNone) (VStr EmptyString) (VStr EmptyString)
            (field entries "delivery_date" VNone)
            (field entries "expected_delivery_date" VNone))).
Proof.
  split.
  - intros fetch tn entries rest checkpoints base Hdata Hcheckpoints Hsummary.
    exists (str_of_nat (List.length checkpoints)). split; [apply str_of_nat_reads |].
    enter_try Hdata.
    rewrite try_block_dict, Hsummary, bind_inr, Hcheckpoints.
    destruct checkpoints as [| first more].
    + simpl. now rewrite !append_empty_r.
    + destruct (create_summary_first_dict _ _ _ _ Hcheckpoints Hsummary) as [latest ->].
      simpl. unfold text, add_if.
      destruct (truthy (field latest "date" (VStr EmptyString)));
        rewrite ?append_empty_r; reflexivity.
  - intros fetch tn entries rest carrier Hdata Hcheckpoints Hcarrier.
    enter_try Hdata. rewrite try_block_dict.
    rewrite (create_summary_fields entries [] carrier Hcarrier)
      by (rewrite Hcheckpoints; reflexivity).
    rewrite Hcheckpoints. reflexivity.
Qed.

Lemma post_processing_witness :
  exists count,
    reads_as count 2 /\
    get_tracking
      (fun _ => VList [VDict [("tag", VStr "PickedUp"); ("slug", VStr "ups");
                              ("checkpoints",
                               VList [VDict [("city", VStr "Austin");
                                             ("date", VStr "2024-01-05T10:00")];
                                      VDict [("city", VStr "Reno")]])]])
      "1Z999" =
    inr (("Picked up via UPS from Austin" ++ nl ++ "   Last updated: 2024-01-05T10:00")
         ++ nl ++ "   Total events: " ++ count).
Proof.
  exact (proj1 post_processing
           (fun _ => VList [VDict [("tag", VStr "PickedUp"); ("slug", VStr "ups");
                                   ("checkpoints",
                                    VList [VDict [("city", VStr "Austin");
                                                  ("date", VStr "2024-01-05T10:00")];
                                           VDict [("city", VStr "Reno")]])]])
           "1Z999"
           [("tag", VStr "PickedUp"); ("slug", VStr "ups");
            ("checkpoints",
             VList [VDict [("city", VStr "Austin"); ("date", VStr "2024-01-05T10:00")];
                    VDict [("city", VStr "Reno")]])]
           []
           [VDict [("city", VStr "Austin"); ("date", VStr "2024-01-05T10:00")];
            VDict [("city", VStr "Reno")]]
           "Picked up via UPS from Austin"
           eq_refl eq_refl eq_refl).
Defined.

(** The numeral read as 2 without leading zeros is "2". *)
Lemma reads_as_two count : reads_as count 2 -> count = "2".
Proof.
  intros (d & Hparse & Hnorm & Hvalue).
  apply NilZero.sus in Hparse. subst count.
  rewrite <- Hnorm, <- (Unsigned.to_of d), Hvalue. reflexivity.
Qed.

(** C8, where the code departs from it: a shipment whose checkpoints are
    [None] has no checkpoint sequence.  [_create_summary] tests the
    value and builds the summary; [get_tracking] tests it too before
    reading the date, then takes its [len], which raises: the output is
    the error text, not the summary. *)
Theorem checkpoints_null_raises :
  _create_summary (VDict [("tag", VStr "InfoReceived"); ("checkpoints", VNone)]) =
  inr "Shipment information received by Unknown Carrier" /\
  get_tracking (fun _ => VList [VDict [("tag", VStr "InfoReceived"); ("checkpoints", VNone)]])
    "1Z999" =
  inr "Error processing tracking data: object of type 'NoneType' has no len()".
Proof. split; reflexivity. Qed.

(** ** Checkpoints after the first *)

Section LaterCheckpoints.

(** Two shipments that agree on every field but the checkpoints, whose
    checkpoints agree in length and first element. *)
Variables e1 e2 : list (string * value).
Hypothesis other_fields :
  forall key, key <> "checkpoints" -> dict_lookup key e1 = dict_lookup key e2.
Hypothesis same_view :
  checkpoints_agree (dict_lookup "checkpoints" e1) (dict_lookup "checkpoints" e2).

(** What the program reads of the checkpoints: their truth value, their
    first element and their length. *)
Lemma checkpoints_agree_view :
  truthy (field e1 "checkpoints" (VList [])) = truthy (field e2 "checkpoints" (VList []))
  /\ py_item0 (field e1 "checkpoints" (VList [])) = py_item0 (field e2 "checkpoints" (VList []))
  /\ py_len (field e1 "checkpoints" (VList [])) = py_len (field e2 "checkpoints" (VList [])).
Proof.
  destruct same_view as [Hsame | (l1 & l2 & H1 & H2 & Hlen & Hhead)].
  - rewrite (field_agree e1 e2 _ _ Hsame). auto.
  - rewrite (field_found _ _ _ _ H1), (field_found _ _ _ _ H2).
    destruct l1 as [| x1 l1], l2 as [| x2 l2]; try discriminate; [auto |].
    simpl in Hlen, Hhead. injection Hhead as ->.
    simpl. rewrite Hlen. auto.
Qed.

Lemma create_summary_agree : _create_summary (VDict e1) = _create_summary (VDict e2).
Proof.
  destruct checkpoints_agree_view as (Htruthy & Hitem & _).
  rewrite !create_summary_dict. unfold latest_checkpoint.
  rewrite Htruthy, Hitem.
  rewrite (field_agree e1 e2 "slug"), (field_agree e1 e2 "tracking_number"),
    (field_agree e1 e2 "tag"), (field_agree e1 e2 "delivery_date"),
    (field_agree e1 e2 "expected_delivery_date");
    solve [reflexivity | apply other_fields; discriminate].
Qed.

(** C10: two responses whose first shipments agree on every field other
    than the checkpoints, and whose checkpoint sequences have the same
    length and the same first element, give the same output. *)
Theorem later_checkpoints_count_only
    (fetch1 fetch2 : string -> value) (tn1 tn2 : string) (rest1 rest2 : list value) :
  fetch1 tn1 = VList (VDict e1 :: rest1) ->
  fetch2 tn2 = VList (VDict e2 :: rest2) ->
  get_tracking fetch1 tn1 = get_tracking fetch2 tn2.
Proof.
  intros Hdata1 Hdata2.
  enter_try Hdata1. enter_try Hdata2.
  rewrite !try_block_dict, create_summary_agree.
  destruct checkpoints_agree_view as (Htruthy & Hitem & Hlen).
  rewrite Htruthy, Hitem, Hlen. reflexivity.
Qed.

End LaterCheckpoints.

Lemma later_checkpoints_count_only_witness :
  get_tracking
    (fun _ => VList [VDict [("tag", VStr "InTransit");
                            ("checkpoints",
                             VList [VDict [("city", VStr "Reno")];
                                    VDict [("city", VStr "Austin")]])]])
    "1Z999" =
  get_tracking
    (fun _ => VList [VDict [("tag", VStr "InTransit");
                            ("checkpoints",
                             VList [VDict [("city", VStr "Reno")];
                                    VDict [("city", VStr "Boise"); ("remark", VStr "Sorted")]])]])
    "1Z999".
Proof.
  refine (later_checkpoints_count_only
            [("tag", VStr "InTransit");
             ("checkpoints",
              VList [VDict [("city", VStr "Reno")]; VDict [("city", VStr "Austin")]])]
            [("tag", VStr "InTransit");
             ("checkpoints",
              VList [VDict [("city", VStr "Reno")];
                     VDict [("city", VStr "Boise"); ("remark", VStr "Sorted")]])]
            _ _ _ _ "1Z999" "1Z999" [] [] eq_refl eq_refl).
  - intros key Hkey. cbn [dict_lookup].
    destruct (String.eqb "tag" key); [reflexivity |].
    destruct (String.eqb_spec "checkpoints" key) as [Heq | _]; [| reflexivity].
    now contradiction Hkey.
  - right. do 2 eexists. repeat split; reflexivity.
Defined.


(** ** Beyond the first shipment, and shipments of the wrong shape *)

Lemma append_assoc (a b c : string) : (a ++ b) ++ c = a ++ b ++ c.
Proof. induction a as [| x a IH]; simpl; [reflexivity | now rewrite IH]. Qed.

Lemma append_eq_empty (a b : string) : a ++ b = EmptyString -> a = EmptyString /\ b = EmptyString.
Proof. destruct a; simpl; [auto | discriminate]. Qed.

(** X1: only the first record of the response is read: two responses
    with the same first record give the same output, whatever follows it. *)
Theorem first_shipment_only (fetch1 fetch2 : string -> value) (tn1 tn2 : string)
    (shipment : value) (rest1 rest2 : list value) :
  fetch1 tn1 = VList (shipment :: rest1) ->
  fetch2 tn2 = VList (shipment :: rest2) ->
  get_tracking fetch1 tn1 = get_tracking fetch2 tn2.
Proof.
  intros Hdata1 Hdata2. enter_try Hdata1. enter_try Hdata2.
  now rewrite (try_block_first shipment rest1), (try_block_first shipment rest2).
Qed.

Lemma first_shipment_only_witness :
  get_tracking (fun _ => VList [in_transit_example]) "1Z999" =
  get_tracking (fun _ => VList [in_transit_example; delivered_example; VInt 7]) "1Z999".
Proof.
  exact (first_shipment_only (fun _ => VList [in_transit_example])
           (fun _ => VList [in_transit_example; delivered_example; VInt 7])
           "1Z999" "1Z999" in_transit_example [] [delivered_example; VInt 7]
           eq_refl eq_refl).
Defined.

(** X2: a first record that is not a dict has no [get]: the output is
    the error text naming its type. *)
Theorem shipment_not_a_dict (fetch : string -> value) (tn : string)
    (shipment : value) (rest : list value) :
  fetch tn = VList (shipment :: rest) ->
  (forall entries, shipment <> VDict entries) ->
  get_tracking fetch tn =
  inr ("Error processing tracking data: '" ++ type_name shipment
       ++ "' object has no attribute 'get'").
Proof.
  intros Hdata Hshape. enter_try Hdata.
  rewrite (try_block_create_summary_raises _ _ _ (create_summary_not_a_dict _ Hshape)).
  reflexivity.
Qed.

Lemma shipment_not_a_dict_witness :
  get_tracking (fun _ => VList [VStr "delivered"]) "1Z999" =
  inr "Error processing tracking data: 'str' object has no attribute 'get'".
Proof.
  apply (shipment_not_a_dict (fun _ => VList [VStr "delivered"]) "1Z999"
           (VStr "delivered") [] eq_refl).
  intros entries. discriminate.
Defined.

Lemma format_carrier_not_a_string slug :
  truthy slug = true -> is_str slug = false ->
  _format_carrier slug = inl (AttributeError (type_name slug) "upper").
Proof.
  intros Htruthy Hshape. unfold _format_carrier. rewrite Htruthy.
  destruct slug; try discriminate Hshape; reflexivity.
Qed.

(** X3: a slug that is truthy and not a string (a number, [True], a
    non-empty list or dict) cannot be upper-cased: the output is the
    error text naming its type. *)
Theorem slug_not_a_string (fetch : string -> value) (tn : string)
    (entries : list (string * value)) (rest : list value) :
  fetch tn = VList (VDict entries :: rest) ->
  truthy (field entries "slug" VNone) = true ->
  is_str (field entries "slug" VNone) = false ->
  get_tracking fetch tn =
  inr ("Error processing tracking data: '" ++ type_name (field entries "slug" VNone)
       ++ "' object has no attribute 'upper'").
Proof.
  intros Hdata Htruthy Hshape. enter_try Hdata.
  rewrite (try_block_create_summary_raises (VDict entries) rest
             (AttributeError (type_name (field entries "slug" VNone)) "upper")).
  - reflexivity.
  - rewrite create_summary_dict, (format_carrier_not_a_string _ Htruthy Hshape).
    reflexivity.
Qed.

Lemma slug_not_a_string_witness :
  get_tracking (fun _ => VList [VDict [("tag", VStr "Delivered"); ("slug", VInt 42)]]) "1Z999" =
  inr "Error processing tracking data: 'int' object has no attribute 'upper'".
Proof.
  exact (slug_not_a_string
           (fun _ => VList [VDict [("tag", VStr "Delivered"); ("slug", VInt 42)]]) "1Z999"
           [("tag", VStr "Delivered"); ("slug", VInt 42)] [] eq_refl eq_refl eq_refl).
Defined.

(** What [_format_carrier] returns: the placeholder, or a non-empty
    string slug upper-cased. *)
Lemma format_carrier_inv slug carrier :
  _format_carrier slug = inr carrier ->
  carrier = "Unknown Carrier" \/
  exists c s, slug = VStr (String c s) /\ carrier = upper (String c s).
Proof.
  unfold _format_carrier. destruct (truthy slug) eqn:Htruthy.
  - destruct slug as [| | | | [| c s] | |]; try discriminate.
    simpl. intros Hcarrier. injection Hcarrier as <-. right. now exists c, s.
  - intros Hcarrier. injection Hcarrier as <-. now left.
Qed.

Lemma upper_nonempty c s : upper (String c s) <> EmptyString.
Proof. discriminate. Qed.

(** X4: the carrier is never blank: whatever the slug, a carrier that is
    returned is not the empty string. *)
Theorem carrier_never_blank (slug : value) (carrier : string) :
  _format_carrier slug = inr carrier -> carrier <> EmptyString.
Proof.
  intros Hcarrier.
  destruct (format_carrier_inv _ _ Hcarrier) as [-> | (c & s & _ & ->)].
  - discriminate.
  - apply upper_nonempty.
Qed.

Lemma carrier_never_blank_witness : "UPS" <> EmptyString.
Proof. exact (carrier_never_blank (VStr "ups") "UPS" eq_refl). Defined.

(** X5: a shipment with none of the keys [tracking_number], [slug],
    [tag] and [checkpoints] is summarised as "Tracking Unknown via
    Unknown Carrier", with no further line, whatever else it holds. *)
Theorem bare_shipment (fetch : string -> value) (tn : string)
    (entries : list (string * value)) (rest : list value) :
  fetch tn = VList (VDict entries :: rest) ->
  dict_lookup "tracking_number" entries = None ->
  dict_lookup "slug" entries = None ->
  dict_lookup "tag" entries = None ->
  dict_lookup "checkpoints" entries = None ->
  get_tracking fetch tn = inr "Tracking Unknown via Unknown Carrier".
Proof.
  intros Hdata Hnumber Hslug Htag Hcheckpoints. enter_try Hdata.
  rewrite try_block_dict, create_summary_dict.
  rewrite (field_missing _ _ _ Hnumber), (field_missing _ _ _ Hslug),
    (field_missing _ _ _ Htag), (field_missing _ _ _ Hcheckpoints).
  reflexivity.
Qed.

Lemma bare_shipment_witness :
  get_tracking (fun _ => VList [VDict [("delivery_date", VStr "2024-01-05")]]) "1Z999" =
  inr "Tracking Unknown via Unknown Carrier".
Proof.
  exact (bare_shipment (fun _ => VList [VDict [("delivery_date", VStr "2024-01-05")]]) "1Z999"
           [("delivery_date", VStr "2024-01-05")] [] eq_refl eq_refl eq_refl eq_refl eq_refl).
Defined.


(** ** Which exceptions the [try] block meets *)

Lemma bind_inl_inv {A B} (m : M A) (k : A -> M B) (e : exn) :
  bind m k = inl e -> m = inl e \/ exists x, m = inr x /\ k x = inl e.
Proof.
  destruct m as [e' | x]; simpl; intros Hraise.
  - left. now inversion Hraise.
  - right. now exists x.
Qed.

Lemma py_get_raises obj key default e :
  py_get obj key default = inl e -> e = AttributeError (type_name obj) "get".
Proof. destruct obj; simpl; intros Hraise; now inversion Hraise. Qed.

Lemma py_len_raises obj e : py_len obj = inl e -> e = NoLen (type_name obj).
Proof. destruct obj; simpl; intros Hraise; now inversion Hraise. Qed.

Lemma format_carrier_raises slug e :
  _format_carrier slug = inl e -> e = AttributeError (type_name slug) "upper".
Proof.
  unfold _format_carrier. destruct (truthy slug); [| discriminate].
  destruct slug; simpl; intros Hraise; now inversion Hraise.
Qed.

(** The index 0 is read only from a truthy value, so it is in range. *)
Lemma py_item0_truthy_raises obj e :
  truthy obj = true -> py_item0 obj = inl e ->
  e = KeyError (VInt 0) \/ e = NotSubscriptable (type_name obj).
Proof.
  destruct obj as [| b | n | x | s | items | entries]; simpl; intros Htruthy Hraise;
    try (right; now inversion Hraise).
  - destruct s; [discriminate Htruthy | discriminate Hraise].
  - destruct items; [discriminate Htruthy | discriminate Hraise].
  - left. now inversion Hraise.
Qed.

Lemma met_get ty : met (AttributeError ty "get").
Proof. left. now exists ty. Qed.

Lemma met_upper ty : met (AttributeError ty "upper").
Proof. right. left. now exists ty. Qed.

Lemma met_key : met (KeyError (VInt 0)).
Proof. right. right. now left. Qed.

Lemma met_subscript ty : met (NotSubscriptable ty).
Proof. do 3 right. left. now exists ty. Qed.

Lemma met_len ty : met (NoLen ty).
Proof. do 4 right. now exists ty. Qed.

Lemma met_not_index e what : met e -> e <> IndexError what.
Proof.
  intros [[ty ->] | [[ty ->] | [-> | [[ty ->] | [ty ->]]]]]; discriminate.
Qed.

Ltac met_step H :=
  apply bind_inl_inv in H; destruct H as [H | (? & _ & H)];
  [ first [ apply py_get_raises in H; subst; apply met_get
          | apply format_carrier_raises in H; subst; apply met_upper
          | apply py_len_raises in H; subst; apply met_len ] | ].

Lemma latest_checkpoint_met checkpoints e : latest_checkpoint checkpoints = inl e -> met e.
Proof.
  unfold latest_checkpoint. destruct (truthy checkpoints) eqn:Htruthy; [| discriminate].
  intros Hraise.
  destruct (py_item0_truthy_raises _ _ Htruthy Hraise) as [-> | ->];
    [apply met_key | apply met_subscript].
Qed.

Lemma create_summary_met shipment e : _create_summary shipment = inl e -> met e.
Proof.
  unfold _create_summary. intros Hraise.
  do 5 met_step Hraise.
  apply bind_inl_inv in Hraise. destruct Hraise as [Hraise | (latest & _ & Hraise)];
    [now apply latest_checkpoint_met in Hraise |].
  do 4 met_step Hraise.
  discriminate Hraise.
Qed.


(** X6: the [try] block raises nothing but a missing [get] or [upper],
    a [KeyError] on 0, a value that cannot be subscripted and a value
    without [len]; it never raises an [IndexError], the index 0 being
    read only from a truthy value. *)
Theorem try_block_exceptions (data : value) (e : exn) :
  try_block data = inl e -> met e /\ forall what, e <> IndexError what.
Proof.
  intros Hraise.
  assert (Hmet : met e); [| split; [exact Hmet | intros what; now apply met_not_index]].
  destruct data as [| | | | | [| shipment rest] |]; try discriminate Hraise.
  unfold try_block in Hraise.
  apply bind_inl_inv in Hraise. destruct Hraise as [Hraise | (summary & _ & Hraise)];
    [now apply create_summary_met in Hraise |].
  apply bind_inl_inv in Hraise. destruct Hraise as [Hraise | (checkpoints & _ & Hraise)];
    [apply py_get_raises in Hraise; subst; apply met_get |].
  apply bind_inl_inv in Hraise. destruct Hraise as [Hraise | (annotated & _ & Hraise)].
  - destruct (truthy checkpoints) eqn:Htruthy; [| discriminate Hraise].
    apply bind_inl_inv in Hraise. destruct Hraise as [Hraise | (first & _ & Hraise)].
    + destruct (py_item0_truthy_raises _ _ Htruthy Hraise) as [-> | ->];
        [apply met_key | apply met_subscript].
    + met_step Hraise. discriminate Hraise.
  - met_step Hraise. discriminate Hraise.
Qed.

Lemma try_block_exceptions_witness :
  met (KeyError (VInt 0)) /\ forall what, KeyError (VInt 0) <> IndexError what.
Proof.
  exact (try_block_exceptions
           (VList [VDict [("checkpoints", VDict [("city", VStr "Reno")])]])
           (KeyError (VInt 0)) eq_refl).
Defined.

(** ** When a dict shipment gets through *)

Lemma format_carrier_ok_iff slug :
  (exists carrier, _format_carrier slug = inr carrier) <-> slug_ok slug = true.
Proof.
  unfold _format_carrier, slug_ok. destruct (truthy slug) eqn:Htruthy; simpl.
  - destruct slug; simpl; split; intros H; try discriminate H; eauto;
      destruct H as [carrier H]; discriminate H.
  - split; eauto.
Qed.

Lemma checkpoints_ok_latest checkpoints :
  checkpoints_ok checkpoints = true ->
  exists latest, latest_checkpoint checkpoints = inr (VDict latest).
Proof.
  unfold latest_checkpoint.
  destruct checkpoints as [| | | | [| c s] | [| [] more] | [| kv more]];
    try discriminate; simpl; intros _; eauto.
Qed.

Lemma create_summary_ok entries :
  slug_ok (field entries "slug" VNone) = true ->
  checkpoints_ok (field entries "checkpoints" (VList [])) = true ->
  exists summary, _create_summary (VDict entries) = inr summary.
Proof.
  intros Hslug Hcheckpoints.
  apply format_carrier_ok_iff in Hslug. destruct Hslug as [carrier Hcarrier].
  destruct (checkpoints_ok_latest _ Hcheckpoints) as [latest Hlatest].
  rewrite (create_summary_fields _ _ _ Hcarrier Hlatest). eauto.
Qed.

Lemma create_summary_slug_ok entries summary :
  _create_summary (VDict entries) = inr summary ->
  slug_ok (field entries "slug" VNone) = true.
Proof.
  rewrite create_summary_dict. intros Hsummary.
  apply format_carrier_ok_iff.
  destruct (_format_carrier (field entries "slug" VNone)) as [e | carrier];
    [discriminate Hsummary | eauto].
Qed.

(** X7: for a dict shipment the [try] block gets through exactly when
    the slug is falsy or a string and the checkpoints are an empty list,
    string or dict, or a list that starts with a dict. *)
Theorem error_free_iff (entries : list (string * value)) (rest : list value) :
  (exists out, try_block (VList (VDict entries :: rest)) = inr out) <->
  slug_ok (field entries "slug" VNone)
  && checkpoints_ok (field entries "checkpoints" (VList [])) = true.
Proof.
  rewrite try_block_dict.
  destruct (_create_summary (VDict entries)) as [e | summary] eqn:Hsummary.
  - split; [intros [out Hout]; discriminate Hout |].
    intros Hok. apply andb_true_iff in Hok. destruct Hok as [Hslug Hcheckpoints].
    destruct (create_summary_ok _ Hslug Hcheckpoints) as [summary Hok].
    rewrite Hok in Hsummary. discriminate Hsummary.
  - rewrite (create_summary_slug_ok _ _ Hsummary), bind_inr, andb_true_l.
    destruct (field entries "checkpoints" (VList []))
      as [| [] | n | x | [| c s] | [| [] more] | [| kv more]];
      simpl; try destruct (Z.eqb n 0); try destruct (float_nonzero x); simpl;
      (split; [intros [out Hout]; first [discriminate Hout | reflexivity]
              | intros Hok; first [discriminate Hok | eexists; reflexivity]]).
Qed.

Lemma error_free_iff_witness :
  exists out, try_block (VList [in_transit_example]) = inr out.
Proof.
  exact (proj2 (error_free_iff
                  [("tag", VStr "InTransit"); ("slug", VStr "dhl");
                   ("expected_delivery_date", VStr "2024-02-01");
                   ("checkpoints",
                    VList [VDict [("city", VStr "Reno");
                                  ("remark", VStr "Departed facility")]])] [])
           eq_refl).
Defined.

(** ** Checkpoints of the wrong shape *)

Lemma create_summary_raises_at_latest entries e :
  slug_ok (field entries "slug" VNone) = true ->
  (latest <- latest_checkpoint (field entries "checkpoints" (VList [])) ;;
   py_get latest "city" (VStr EmptyString)) = inl e ->
  _create_summary (VDict entries) = inl e.
Proof.
  intros Hslug Hraise.
  apply format_carrier_ok_iff in Hslug. destruct Hslug as [carrier Hcarrier].
  rewrite create_summary_dict, Hcarrier, bind_inr.
  destruct (latest_checkpoint (field entries "checkpoints" (VList []))) as [e' | latest].
  - simpl in Hraise. injection Hraise as ->. reflexivity.
  - simpl in Hraise. now rewrite bind_inr, Hraise.
Qed.

(** X8: checkpoints given as a non-empty dict are subscripted with 0,
    which is no key of theirs: the output is the error text "0". *)
Theorem checkpoints_dict_error (fetch : string -> value) (tn : string)
    (entries : list (string * value)) (rest : list value)
    (kv : string * value) (more : list (string * value)) :
  fetch tn = VList (VDict entries :: rest) ->
  slug_ok (field entries "slug" VNone) = true ->
  field entries "checkpoints" (VList []) = VDict (kv :: more) ->
  get_tracking fetch tn = inr "Error processing tracking data: 0".
Proof.
  intros Hdata Hslug Hcheckpoints. enter_try Hdata.
  rewrite (try_block_create_summary_raises (VDict entries) rest (KeyError (VInt 0))).
  - reflexivity.
  - apply (create_summary_raises_at_latest _ _ Hslug). now rewrite Hcheckpoints.
Qed.

Lemma checkpoints_dict_error_witness :
  get_tracking
    (fun _ => VList [VDict [("tag", VStr "InTransit");
                            ("checkpoints", VDict [("city", VStr "Reno")])]]) "1Z999" =
  inr "Error processing tracking data: 0".
Proof.
  exact (checkpoints_dict_error
           (fun _ => VList [VDict [("tag", VStr "InTransit");
                                   ("checkpoints", VDict [("city", VStr "Reno")])]]) "1Z999"
           [("tag", VStr "InTransit"); ("checkpoints", VDict [("city", VStr "Reno")])] []
           ("city", VStr "Reno") [] eq_refl eq_refl eq_refl).
Defined.

(** X9: when the first checkpoint of a list is not a dict, it has no
    [get]: the output is the error text naming its type. *)
Theorem first_checkpoint_not_a_dict (fetch : string -> value) (tn : string)
    (entries : list (string * value)) (rest : list value)
    (first : value) (more : list value) :
  fetch tn = VList (VDict entries :: rest) ->
  slug_ok (field entries "slug" VNone) = true ->
  field entries "checkpoints" (VList []) = VList (first :: more) ->
  (forall latest, first <> VDict latest) ->
  get_tracking fetch tn =
  inr ("Error processing tracking data: '" ++ type_name first
       ++ "' object has no attribute 'get'").
Proof.
  intros Hdata Hslug Hcheckpoints Hshape. enter_try Hdata.
  rewrite (try_block_create_summary_raises (VDict entries) rest
             (AttributeError (type_name first) "get")).
  - reflexivity.
  - apply (create_summary_raises_at_latest _ _ Hslug). rewrite Hcheckpoints.
    destruct first as [| | | | | | latest]; try reflexivity.
    now contradiction (Hshape latest).
Qed.

Lemma first_checkpoint_not_a_dict_witness :
  get_tracking
    (fun _ => VList [VDict [("checkpoints", VList [VStr "Departed"; VStr "Arrived"])]])
    "1Z999" =
  inr "Error processing tracking data: 'str' object has no attribute 'get'".
Proof.
  apply (first_checkpoint_not_a_dict
           (fun _ => VList [VDict [("checkpoints", VList [VStr "Departed"; VStr "Arrived"])]])
           "1Z999" [("checkpoints", VList [VStr "Departed"; VStr "Arrived"])] []
           (VStr "Departed") [VStr "Arrived"] eq_refl eq_refl eq_refl).
  intros latest. discriminate.
Defined.

(** X10: falsy checkpoints without a length ([None], [False], 0, 0.0)
    pass [_create_summary], which only tests them, and stop
    [get_tracking], which takes their [len]: the summary is built, and
    the output is the error text naming their type. *)
Theorem checkpoints_unsized_error (fetch : string -> value) (tn : string)
    (entries : list (string * value)) (rest : list value) :
  fetch tn = VList (VDict entries :: rest) ->
  slug_ok (field entries "slug" VNone) = true ->
  truthy (field entries "checkpoints" (VList [])) = false ->
  checkpoints_ok (field entries "checkpoints" (VList [])) = false ->
  (exists summary, _create_summary (VDict entries) = inr summary) /\
  get_tracking fetch tn =
  inr ("Error processing tracking data: object of type '"
       ++ type_name (field entries "checkpoints" (VList [])) ++ "' has no len()").
Proof.
  intros Hdata Hslug Hfalsy Hshape.
  apply format_carrier_ok_iff in Hslug. destruct Hslug as [carrier Hcarrier].
  assert (Hsummary := create_summary_fields entries [] carrier Hcarrier).
  unfold latest_checkpoint in Hsummary. rewrite Hfalsy in Hsummary.
  specialize (Hsummary eq_refl).
  split; [eauto |].
  enter_try Hdata. rewrite try_block_dict, Hsummary, bind_inr, Hfalsy.
  destruct (field entries "checkpoints" (VList []))
    as [| b | n | x | [| c s] | [| first more] | [| kv more]];
    try discriminate Hfalsy; try discriminate Hshape; reflexivity.
Qed.

Lemma checkpoints_unsized_error_witness :
  (exists summary,
     _create_summary (VDict [("tag", VStr "PickedUp"); ("checkpoints", VInt 0)]) = inr summary) /\
  get_tracking (fun _ => VList [VDict [("tag", VStr "PickedUp"); ("checkpoints", VInt 0)]])
    "1Z999" =
  inr ("Error processing tracking data: object of type '"
       ++ type_name (field [("tag", VStr "PickedUp"); ("checkpoints", VInt 0)]
                       "checkpoints" (VList []))
       ++ "' has no len()").
Proof.
  exact (checkpoints_unsized_error
           (fun _ => VList [VDict [("tag", VStr "PickedUp"); ("checkpoints", VInt 0)]]) "1Z999"
           [("tag", VStr "PickedUp"); ("checkpoints", VInt 0)] []
           eq_refl eq_refl eq_refl eq_refl).
Defined.


(** ** Fields a sentence does not read *)

Lemma status_summary_without_number tn1 tn2 carrier status location remark delivery_date eta :
  truthy status = true ->
  status_summary tn1 carrier status location remark delivery_date eta =
  status_summary tn2 carrier status location remark delivery_date eta.
Proof. intros Htag. unfold status_summary. now rewrite Htag. Qed.

Lemma status_summary_without_delivery_date
    tracking_num carrier status location remark date1 date2 eta :
  py_eq_str status "Delivered" = false ->
  status_summary tracking_num carrier status location remark date1 eta =
  status_summary tracking_num carrier status location remark date2 eta.
Proof. intros Htag. unfold status_summary. now rewrite Htag. Qed.

Lemma status_summary_without_eta
    tracking_num carrier status location remark delivery_date eta1 eta2 :
  py_eq_str status "InTransit" = false ->
  status_summary tracking_num carrier status location remark delivery_date eta1 =
  status_summary tracking_num carrier status location remark delivery_date eta2.
Proof. intros Htag. unfold status_summary. now rewrite Htag. Qed.

(** Two dict shipments with the same slug and checkpoints, whose status
    sentences coincide, give the same result. *)
Lemma try_block_same_sentence e1 e2 rest1 rest2 :
  field e1 "slug" VNone = field e2 "slug" VNone ->
  field e1 "checkpoints" (VList []) = field e2 "checkpoints" (VList []) ->
  (forall carrier location remark,
     status_summary (field e1 "tracking_number" (VStr "Unknown")) carrier
       (field e1 "tag" VNone) location remark
       (field e1 "delivery_date" VNone) (field e1 "expected_delivery_date" VNone) =
     status_summary (field e2 "tracking_number" (VStr "Unknown")) carrier
       (field e2 "tag" VNone) location remark
       (field e2 "delivery_date" VNone) (field e2 "expected_delivery_date" VNone)) ->
  try_block (VList (VDict e1 :: rest1)) = try_block (VList (VDict e2 :: rest2)).
Proof.
  intros Hslug Hcheckpoints Hsentence.
  rewrite !try_block_dict, !create_summary_dict, Hslug, Hcheckpoints.
  destruct (_format_carrier (field e2 "slug" VNone)) as [e | carrier]; [reflexivity |].
  rewrite !bind_inr.
  destruct (latest_checkpoint (field e2 "checkpoints" (VList []))) as [e | latest];
    [reflexivity |].
  rewrite !bind_inr.
  destruct (py_get latest "city" (VStr EmptyString)) as [e | location]; [reflexivity |].
  rewrite !bind_inr.
  destruct (py_get latest "remark" (VStr EmptyString)) as [e | remark]; [reflexivity |].
  rewrite !bind_inr, Hsentence. reflexivity.
Qed.

(** Lookups that agree away from [key], on concrete entries. *)
Ltac lookups_agree :=
  let k := fresh "key" in
  let Hk := fresh "Hkey" in
  intros k Hk; cbn [dict_lookup];
  repeat match goal with
         | |- context [String.eqb ?s k] =>
             destruct (String.eqb_spec s k);
             [ first [ reflexivity | subst k; now contradiction Hk ] | ]
         end;
  reflexivity.

(** X11: the tracking number is shown only when there is no tag: two
    shipments that differ in nothing but their tracking number, with a
    truthy tag, give the same output. *)
Theorem tracking_number_unused_with_tag
    (fetch1 fetch2 : string -> value) (tn1 tn2 : string)
    (e1 e2 : list (string * value)) (rest1 rest2 : list value) :
  fetch1 tn1 = VList (VDict e1 :: rest1) ->
  fetch2 tn2 = VList (VDict e2 :: rest2) ->
  (forall key, key <> "tracking_number" -> dict_lookup key e1 = dict_lookup key e2) ->
  truthy (field e1 "tag" VNone) = true ->
  get_tracking fetch1 tn1 = get_tracking fetch2 tn2.
Proof.
  intros Hdata1 Hdata2 Hfields Htag. enter_try Hdata1. enter_try Hdata2.
  rewrite (try_block_same_sentence e1 e2 rest1 rest2); [reflexivity | | |].
  - apply field_agree, Hfields. discriminate.
  - apply field_agree, Hfields. discriminate.
  - intros carrier location remark.
    rewrite <- (field_agree e1 e2 "tag"), <- (field_agree e1 e2 "delivery_date"),
      <- (field_agree e1 e2 "expected_delivery_date")
      by (apply Hfields; discriminate).
    now apply status_summary_without_number.
Qed.

Lemma tracking_number_unused_with_tag_witness :
  get_tracking
    (fun _ => VList [VDict [("tracking_number", VStr "1Z999"); ("tag", VStr "Exception")]])
    "1Z999" =
  get_tracking
    (fun _ => VList [VDict [("tracking_number", VStr "AB123"); ("tag", VStr "Exception")]])
    "AB123".
Proof.
  refine (tracking_number_unused_with_tag _ _ "1Z999" "AB123"
            [("tracking_number", VStr "1Z999"); ("tag", VStr "Exception")]
            [("tracking_number", VStr "AB123"); ("tag", VStr "Exception")]
            [] [] eq_refl eq_refl _ eq_refl).
  lookups_agree.
Defined.

(** X12: the delivery date is read by the "Delivered" sentence alone:
    two shipments that differ in nothing but their delivery date, with
    another tag, give the same output. *)
Theorem delivery_date_unused_unless_delivered
    (fetch1 fetch2 : string -> value) (tn1 tn2 : string)
    (e1 e2 : list (string * value)) (rest1 rest2 : list value) :
  fetch1 tn1 = VList (VDict e1 :: rest1) ->
  fetch2 tn2 = VList (VDict e2 :: rest2) ->
  (forall key, key <> "delivery_date" -> dict_lookup key e1 = dict_lookup key e2) ->
  py_eq_str (field e1 "tag" VNone) "Delivered" = false ->
  get_tracking fetch1 tn1 = get_tracking fetch2 tn2.
Proof.
  intros Hdata1 Hdata2 Hfields Htag. enter_try Hdata1. enter_try Hdata2.
  rewrite (try_block_same_sentence e1 e2 rest1 rest2); [reflexivity | | |].
  - apply field_agree, Hfields. discriminate.
  - apply field_agree, Hfields. discriminate.
  - intros carrier location remark.
    rewrite <- (field_agree e1 e2 "tag"), <- (field_agree e1 e2 "tracking_number"),
      <- (field_agree e1 e2 "expected_delivery_date")
      by (apply Hfields; discriminate).
    now apply status_summary_without_delivery_date.
Qed.

Lemma delivery_date_unused_unless_delivered_witness :
  get_tracking
    (fun _ => VList [VDict [("tag", VStr "InTransit"); ("delivery_date", VStr "2024-01-05")]])
    "1Z999" =
  get_tracking (fun _ => VList [VDict [("tag", VStr "InTransit")]]) "1Z999".
Proof.
  refine (delivery_date_unused_unless_delivered _ _ "1Z999" "1Z999"
            [("tag", VStr "InTransit"); ("delivery_date", VStr "2024-01-05")]
            [("tag", VStr "InTransit")]
            [] [] eq_refl eq_refl _ eq_refl).
  lookups_agree.
Defined.

(** X13: the expected delivery date is read by the "InTransit" sentence
    alone: two shipments that differ in nothing but that date, with
    another tag, give the same output. *)
Theorem eta_unused_unless_in_transit
    (fetch1 fetch2 : string -> value) (tn1 tn2 : string)
    (e1 e2 : list (string * value)) (rest1 rest2 : list value) :
  fetch1 tn1 = VList (VDict e1 :: rest1) ->
  fetch2 tn2 = VList (VDict e2 :: rest2) ->
  (forall key, key <> "expected_delivery_date" -> dict_lookup key e1 = dict_lookup key e2) ->
  py_eq_str (field e1 "tag" VNone) "InTransit" = false ->
  get_tracking fetch1 tn1 = get_tracking fetch2 tn2.
Proof.
  intros Hdata1 Hdata2 Hfields Htag. enter_try Hdata1. enter_try Hdata2.
  rewrite (try_block_same_sentence e1 e2 rest1 rest2); [reflexivity | | |].
  - apply field_agree, Hfields. discriminate.
  - apply field_agree, Hfields. discriminate.
  - intros carrier location remark.
    rewrite <- (field_agree e1 e2 "tag"), <- (field_agree e1 e2 "tracking_number"),
      <- (field_agree e1 e2 "delivery_date")
      by (apply Hfields; discriminate).
    now apply status_summary_without_eta.
Qed.

Lemma eta_unused_unless_in_transit_witness :
  get_tracking
    (fun _ => VList [VDict [("tag", VStr "Delivered");
                            ("expected_delivery_date", VStr "2024-02-01")]])
    "1Z999" =
  get_tracking
    (fun _ => VList [VDict [("tag", VStr "Delivered");
                            ("expected_delivery_date", VStr "2024-03-09")]])
    "1Z999".
Proof.
  refine (eta_unused_unless_in_transit _ _ "1Z999" "1Z999"
            [("tag", VStr "Delivered"); ("expected_delivery_date", VStr "2024-02-01")]
            [("tag", VStr "Delivered"); ("expected_delivery_date", VStr "2024-03-09")]
            [] [] eq_refl eq_refl _ eq_refl).
  lookups_agree.
Defined.


(** ** The six known sentences *)

Lemma add_if_part summary prefix v :
  add_if (truthy v) summary (prefix ++ py_str v) = summary ++ part prefix v.
Proof.
  unfold add_if, part, text. destruct (truthy v); [reflexivity |].
  now rewrite append_empty_r.
Qed.

(** X14: each known tag has its sentence, made of the carrier and of the
    parts whose field has text: the delivery date and city for
    "Delivered", the city for "OutForDelivery" and "PickedUp", the city,
    remark and expected date for "InTransit", the city and remark for
    "Exception", and the carrier alone for "InfoReceived". *)
Theorem known_tag_summary (entries latest : list (string * value)) (carrier : string) :
  _format_carrier (field entries "slug" VNone) = inr carrier ->
  latest_checkpoint (field entries "checkpoints" (VList [])) = inr (VDict latest) ->
  let tag := field entries "tag" VNone in
  let city := field latest "city" (VStr EmptyString) in
  let remark := field latest "remark" (VStr EmptyString) in
  let delivered := field entries "delivery_date" VNone in
  let eta := field entries "expected_delivery_date" VNone in
  (tag = VStr "Delivered" ->
   _create_summary (VDict entries) =
   inr (" Delivered via " ++ carrier ++ part " on " delivered ++ part " at " city)) /\
  (tag = VStr "OutForDelivery" ->
   _create_summary (VDict entries) =
   inr (" Out for delivery via " ++ carrier ++ part " from " city)) /\
  (tag = VStr "InTransit" ->
   _create_summary (VDict entries) =
   inr ("In transit via " ++ carrier ++ part ", currently in " city ++ part " - " remark
        ++ part (nl ++ "   Expected delivery: ") eta)) /\
  (tag = VStr "Exception" ->
   _create_summary (VDict entries) =
   inr ("Exception via " ++ carrier ++ part " at " city ++ part " - " remark)) /\
  (tag = VStr "PickedUp" ->
   _create_summary (VDict entries) =
   inr ("Picked up via " ++ carrier ++ part " from " city)) /\
  (tag = VStr "InfoReceived" ->
   _create_summary (VDict entries) = inr ("Shipment information received by " ++ carrier)).
Proof.
  intros Hcarrier Hlatest tag city remark delivered eta.
  rewrite (create_summary_fields _ _ _ Hcarrier Hlatest).
  fold tag city remark delivered eta.
  repeat split; intros ->; unfold status_summary;
    cbn [py_eq_str String.eqb Ascii.eqb Bool.eqb];
    try rewrite <- (append_assoc nl "   Expected delivery: ");
    rewrite ?add_if_part, ?append_assoc; reflexivity.
Qed.

Lemma known_tag_summary_witness :
  _create_summary
    (VDict [("tag", VStr "Exception"); ("slug", VStr "dhl");
            ("checkpoints", VList [VDict [("remark", VStr "Address unknown")]])]) =
  inr ("Exception via " ++ "DHL" ++ part " at " (VStr EmptyString)
       ++ part " - " (VStr "Address unknown")).
Proof.
  exact (proj1 (proj2 (proj2 (proj2
           (known_tag_summary
              [("tag", VStr "Exception"); ("slug", VStr "dhl");
               ("checkpoints", VList [VDict [("remark", VStr "Address unknown")]])]
              [("remark", VStr "Address unknown")] "DHL" eq_refl eq_refl))))
           eq_refl).
Defined.

(** ** What every summary holds *)

Lemma names_literal c lit : names c (lit ++ c).
Proof. exists lit, EmptyString. now rewrite append_empty_r. Qed.

Lemma names_append c s extra : names c s -> names c (s ++ extra).
Proof.
  intros (before & after & ->). exists before, (after ++ extra).
  now rewrite !append_assoc.
Qed.

Lemma names_prepend c s lit : names c s -> names c (lit ++ s).
Proof.
  intros (before & after & ->). exists (lit ++ before), after.
  now rewrite !append_assoc.
Qed.

Lemma names_add_if c cond s extra : names c s -> names c (add_if cond s extra).
Proof.
  intros Hnames. unfold add_if. destruct cond; [now apply names_append | exact Hnames].
Qed.

(** Look for the carrier: at the end of a literal, else in the summary
    being extended, else behind a prefix. *)
Ltac find_carrier :=
  first [ apply names_literal
        | apply names_add_if; find_carrier
        | apply names_append; find_carrier
        | apply names_prepend; find_carrier ].

Lemma status_summary_names_carrier
    tracking_num carrier status location remark delivery_date eta :
  names carrier (status_summary tracking_num carrier status location remark delivery_date eta).
Proof.
  unfold status_summary. cbv zeta.
  repeat match goal with
         | |- context [if ?b then _ else _] => destruct b
         end;
    find_carrier.
Qed.

Lemma names_nonempty c s : names c s -> c <> EmptyString -> s <> EmptyString.
Proof.
  intros (before & after & ->) Hc Hempty.
  apply append_eq_empty in Hempty. destruct Hempty as [_ Hempty].
  apply append_eq_empty in Hempty. now destruct Hempty.
Qed.

Lemma bind_inr_inv {A B} (m : M A) (k : A -> M B) (y : B) :
  bind m k = inr y -> exists x, m = inr x /\ k x = inr y.
Proof.
  destruct m as [e | x]; simpl; intros Hreturn; [discriminate Hreturn | eauto].
Qed.

(** What a returned summary was made from. *)
Lemma create_summary_inv shipment summary :
  _create_summary shipment = inr summary ->
  exists entries carrier latest,
    shipment = VDict entries /\
    _format_carrier (field entries "slug" VNone) = inr carrier /\
    latest_checkpoint (field entries "checkpoints" (VList [])) = inr (VDict latest) /\
    summary =
    status_summary (field entries "tracking_number" (VStr "Unknown")) carrier
      (field entries "tag" VNone)
      (field latest "city" (VStr EmptyString)) (field latest "remark" (VStr EmptyString))
      (field entries "delivery_date" VNone) (field entries "expected_delivery_date" VNone).
Proof.
  destruct shipment as [| | | | | | entries]; try discriminate.
  rewrite create_summary_dict. intros Hsummary.
  apply bind_inr_inv in Hsummary. destruct Hsummary as (carrier & Hcarrier & Hsummary).
  apply bind_inr_inv in Hsummary. destruct Hsummary as (latest & Hlatest & Hsummary).
  destruct latest as [| | | | | | latest]; try discriminate Hsummary.
  exists entries, carrier, latest. repeat split; try assumption.
  simpl in Hsummary. now injection Hsummary as <-.
Qed.

(** X15: every summary names the carrier: the text returned by
    [_format_carrier] occurs in whatever [_create_summary] returns. *)
Theorem summary_names_carrier (entries : list (string * value)) (carrier summary : string) :
  _format_carrier (field entries "slug" VNone) = inr carrier ->
  _create_summary (VDict entries) = inr summary ->
  exists before after, summary = before ++ carrier ++ after.
Proof.
  intros Hcarrier Hsummary.
  destruct (create_summary_inv _ _ Hsummary)
    as (entries' & carrier' & latest & Hshape & Hcarrier' & _ & ->).
  injection Hshape as <-. rewrite Hcarrier in Hcarrier'. injection Hcarrier' as <-.
  apply status_summary_names_carrier.
Qed.

Lemma summary_names_carrier_witness :
  exists before after,
    " Out for delivery via FEDEX" = before ++ "FEDEX" ++ after.
Proof.
  exact (summary_names_carrier [("tag", VStr "OutForDelivery"); ("slug", VStr "fedex")]
           "FEDEX" " Out for delivery via FEDEX" eq_refl eq_refl).
Defined.

(** The output of the [try] block begins with the summary. *)
Lemma try_block_begins_with_summary shipment rest out :
  try_block (VList (shipment :: rest)) = inr out ->
  exists summary tail, _create_summary shipment = inr summary /\ out = summary ++ tail.
Proof.
  unfold try_block. intros Hout.
  apply bind_inr_inv in Hout. destruct Hout as (summary & Hsummary & Hout).
  apply bind_inr_inv in Hout. destruct Hout as (checkpoints & _ & Hout).
  apply bind_inr_inv in Hout. destruct Hout as (annotated & Hannotated & Hout).
  apply bind_inr_inv in Hout. destruct Hout as (event_count & _ & Hout).
  simpl in Hout. injection Hout as <-.
  assert (Hfirst : exists tail, annotated = summary ++ tail).
  { destruct (truthy checkpoints).
    - apply bind_inr_inv in Hannotated. destruct Hannotated as (first & _ & Hannotated).
      apply bind_inr_inv in Hannotated.
      destruct Hannotated as (latest_time & _ & Hannotated).
      simpl in Hannotated. injection Hannotated as <-.
      unfold add_if. destruct (truthy latest_time); eauto.
      exists EmptyString. now rewrite append_empty_r.
    - simpl in Hannotated. injection Hannotated as <-.
      exists EmptyString. now rewrite append_empty_r. }
  destruct Hfirst as [tail ->]. exists summary.
  unfold add_if. destruct (0 <? event_count)%nat.
  - exists (tail ++ nl ++ "   Total events: " ++ str_of_nat event_count).
    now rewrite append_assoc.
  - eauto.
Qed.

Lemma create_summary_nonempty shipment summary :
  _create_summary shipment = inr summary -> summary <> EmptyString.
Proof.
  intros Hsummary.
  destruct (create_summary_inv _ _ Hsummary)
    as (entries & carrier & latest & _ & Hcarrier & _ & ->).
  apply (names_nonempty carrier); [apply status_summary_names_carrier |].
  destruct (format_carrier_inv _ _ Hcarrier) as [-> | (c & s & _ & ->)];
    [discriminate | apply upper_nonempty].
Qed.

(** X16: the tool never answers with an empty string. *)
Theorem output_never_empty (fetch : string -> value) (tn : string) (out : string) :
  get_tracking fetch tn = inr out -> out <> EmptyString.
Proof.
  unfold get_tracking. destruct (truthy (fetch tn)); simpl.
  - destruct (try_block (fetch tn)) as [e | text] eqn:Htry; simpl;
      intros Hout; injection Hout as <-; [discriminate |].
    destruct (fetch tn) as [| | | | | [| shipment rest] |];
      try (injection Htry as <-; discriminate).
    destruct (try_block_begins_with_summary _ _ _ Htry) as (summary & tail & Hsummary & ->).
    intros Hempty. apply append_eq_empty in Hempty. destruct Hempty as [Hempty _].
    exact (create_summary_nonempty _ _ Hsummary Hempty).
  - intros Hout. injection Hout as <-. discriminate.
Qed.

Lemma output_never_empty_witness : "Tracking Unknown via Unknown Carrier" <> EmptyString.
Proof.
  exact (output_never_empty (fun _ => VList [VDict []]) "1Z999"
           "Tracking Unknown via Unknown Carrier" eq_refl).
Defined.


(** ** The message for a response that could not be retrieved *)

Lemma prefix_append sub tail : String.prefix sub (sub ++ tail) = true.
Proof.
  induction sub as [| a sub IH]; simpl; [now destruct tail |].
  destruct (ascii_dec a a) as [_ | Hdiff]; [exact IH | now contradiction Hdiff].
Qed.

Lemma occurs_unfold sub s :
  occurs sub s =
  String.prefix sub s || match s with
                         | EmptyString => false
                         | String _ rest => occurs sub rest
                         end.
Proof. destruct s; reflexivity. Qed.

Lemma occurs_middle before sub after : occurs sub (before ++ sub ++ after) = true.
Proof.
  induction before as [| c before IH].
  - simpl. rewrite occurs_unfold, prefix_append. reflexivity.
  - simpl. rewrite IH. apply orb_true_r.
Qed.

Lemma status_summary_not_retrieval_failed
    tracking_num carrier status location remark delivery_date eta tail :
  status_summary tracking_num carrier status location remark delivery_date eta ++ tail
  <> retrieval_failed.
Proof.
  unfold status_summary, add_if, retrieval_failed. cbv zeta.
  repeat match goal with
         | |- context [if ?b then _ else _] => destruct b
         end;
    intros Hsame;
    first [ discriminate Hsame
          | rewrite !append_assoc in Hsame;
            apply (f_equal (occurs " via ")) in Hsame;
            rewrite occurs_middle in Hsame; vm_compute in Hsame; discriminate Hsame ].
Qed.

(** X17: the message "Tracking information could not be retrieved" is
    the answer to the falsy responses and to no other: no summary, no
    error text and no other message is equal to it. *)
Theorem retrieval_failed_iff_falsy (fetch : string -> value) (tn : string) :
  get_tracking fetch tn =
  inr " Tracking information could not be retrieved. Please verify the tracking number."
  <-> truthy (fetch tn) = false.
Proof.
  split; [| apply get_tracking_falsy].
  destruct (truthy (fetch tn)) eqn:Htruthy; [| reflexivity].
  rewrite (get_tracking_truthy _ _ Htruthy).
  destruct (try_block (fetch tn)) as [e | out] eqn:Htry; simpl;
    intros Hsame; [discriminate Hsame |].
  injection Hsame as ->. exfalso.
  destruct (fetch tn) as [| | | | | [| shipment rest] |]; try discriminate Htry.
  destruct (try_block_begins_with_summary _ _ _ Htry) as (summary & tail & Hsummary & Hout).
  destruct (create_summary_inv _ _ Hsummary) as (entries & carrier & latest & _ & _ & _ & ->).
  symmetry in Hout. exact (status_summary_not_retrieval_failed _ _ _ _ _ _ _ _ Hout).
Qed.

Lemma retrieval_failed_iff_falsy_witness :
  get_tracking (fun _ => VDict []) "1Z999" =
  inr " Tracking information could not be retrieved. Please verify the tracking number.".
Proof.
  exact (proj2 (retrieval_failed_iff_falsy (fun _ => VDict []) "1Z999") eq_refl).
Defined.


Lemma status_summary_not_no_shipment_data
    tracking_num carrier status location remark delivery_date eta tail :
  status_summary tracking_num carrier status location remark delivery_date eta ++ tail
  <> "No shipment data found in the response.".
Proof.
  unfold status_summary, add_if. cbv zeta.
  repeat match goal with
         | |- context [if ?b then _ else _] => destruct b
         end;
    intros Hsame;
    first [ discriminate Hsame
          | rewrite !append_assoc in Hsame;
            apply (f_equal (occurs " via ")) in Hsame;
            rewrite occurs_middle in Hsame; vm_compute in Hsame; discriminate Hsame ].
Qed.

(** X18: the message "No shipment data found in the response." is the
    answer to the truthy responses that are not lists and to no other. *)
Theorem no_shipment_data_iff (fetch : string -> value) (tn : string) :
  get_tracking fetch tn = inr "No shipment data found in the response."
  <-> truthy (fetch tn) = true /\ is_list (fetch tn) = false.
Proof.
  split.
  - destruct (truthy (fetch tn)) eqn:Htruthy.
    + rewrite (get_tracking_truthy _ _ Htruthy).
      destruct (try_block (fetch tn)) as [e | out] eqn:Htry; simpl;
        intros Hsame; [discriminate Hsame |].
      injection Hsame as ->.
      destruct (fetch tn) as [| | | | | [| shipment rest] |]; try (split; reflexivity).
      * discriminate Htruthy.
      * exfalso.
        destruct (try_block_begins_with_summary _ _ _ Htry)
          as (summary & tail & Hsummary & Hout).
        destruct (create_summary_inv _ _ Hsummary)
          as (entries & carrier & latest & _ & _ & _ & ->).
        symmetry in Hout.
        exact (status_summary_not_no_shipment_data _ _ _ _ _ _ _ _ Hout).
    + rewrite (get_tracking_falsy _ _ Htruthy). intros Hsame. discriminate Hsame.
  - intros [Htruthy Hshape]. rewrite (get_tracking_truthy _ _ Htruthy).
    destruct (fetch tn); try discriminate Hshape; reflexivity.
Qed.

Lemma no_shipment_data_iff_witness :
  get_tracking (fun _ => VStr "Not Found") "1Z999" =
  inr "No shipment data found in the response.".
Proof.
  exact (proj2 (no_shipment_data_iff (fun _ => VStr "Not Found") "1Z999")
           (conj eq_refl eq_refl)).
Defined.

(** X19: for a response that starts with a shipment, the output is an
    error text or begins with what [_create_summary] returned: the
    summary is extended, never altered. *)
Theorem output_begins_with_summary (fetch : string -> value) (tn : string)
    (shipment : value) (rest : list value) (out : string) :
  fetch tn = VList (shipment :: rest) ->
  get_tracking fetch tn = inr out ->
  (exists e, out = "Error processing tracking data: " ++ exn_str e) \/
  (exists summary tail, _create_summary shipment = inr summary /\ out = summary ++ tail).
Proof.
  intros Hdata. enter_try Hdata.
  destruct (try_block (VList (shipment :: rest))) as [e | text] eqn:Htry; simpl;
    intros Hout; injection Hout as <-.
  - left. now exists e.
  - right. exact (try_block_begins_with_summary _ _ _ Htry).
Qed.

Lemma output_begins_with_summary_witness :
  (exists e,
     " Delivered via UPS on 2024-01-05 at Austin" ++ nl
     ++ "   Last updated: 2024-01-05T10:00" ++ nl ++ "   Total events: 1" =
     "Error processing tracking data: " ++ exn_str e) \/
  (exists summary tail,
     _create_summary delivered_example = inr summary /\
     " Delivered via UPS on 2024-01-05 at Austin" ++ nl
     ++ "   Last updated: 2024-01-05T10:00" ++ nl ++ "   Total events: 1" =
     summary ++ tail).
Proof.
  exact (output_begins_with_summary (fun _ => VList [delivered_example]) "1Z999"
           delivered_example [] _ eq_refl eq_refl).
Defined.
